(** * Indicator LED driver (drivers/indicator_led/indicator_led.c)

    A shallow embedding of the Zephyr driver that lights an LED when
    STAT1 = 1 and STAT2 = 1, and the properties of its two operations:
    the re-evaluation [update_led_state] and the bring-up
    [indicator_led_init].

    The GPIO layer of Zephyr is outside the driver: it is an interface
    ([Gpio]) over an abstract hardware state, and every theorem holds for
    every implementation of it.  The driver's calls into that layer and
    its log messages are recorded, in program order, as a list of
    [event]s. *)

From Stdlib Require Import ZArith String List Bool Lia.
From stdpp Require Import base decidable functions list.
Import ListNotations.

Local Open Scope Z_scope.

(** ** Data model *)

(** [struct gpio_dt_spec]: the controller ([const struct device *port],
    here its identity), the pin number and the devicetree flags. *)
Record gpio_dt_spec := {
  port : nat;
  pin : Z;
  dt_flags : Z
}.

(** The three flag words the driver passes down.  Their numeric values are
    Zephyr's and play no part in the driver's control flow. *)
Inductive gpio_flags_t :=
| GPIO_OUTPUT_INACTIVE
| GPIO_INPUT
| GPIO_INT_EDGE_BOTH.

(** [struct indicator_led_config] *)
Record indicator_led_config := {
  led_gpio : gpio_dt_spec;
  stat1_gpio : gpio_dt_spec;
  stat2_gpio : gpio_dt_spec
}.

(** The two functions whose address is stored in a [struct gpio_callback]. *)
Inductive gpio_callback_handler_t :=
| Fn_stat1_gpio_callback
| Fn_stat2_gpio_callback.

(** [struct gpio_callback], as far as the driver fills it: the handler
    (NULL in zero-initialised storage) and the pin mask.  The list node is
    the GPIO layer's. *)
Record gpio_callback := {
  handler : option gpio_callback_handler_t;
  pin_mask : Z
}.

(** [struct indicator_led_data].  [config] is a pointer to the constant
    configuration, NULL until initialisation stores it. *)
Record indicator_led_data := {
  config : option indicator_led_config;
  stat1_cb : gpio_callback;
  stat2_cb : gpio_callback
}.

(** Static storage before bring-up: all zero. *)
Definition zero_data : indicator_led_data :=
  {| config := None;
     stat1_cb := {| handler := None; pin_mask := 0 |};
     stat2_cb := {| handler := None; pin_mask := 0 |} |}.

(** A [struct gpio_callback *] that points into a driver data block:
    the instance that owns the block and the member pointed at. *)
Inductive cb_member := Member_stat1_cb | Member_stat2_cb.

Record cb_ptr := {
  cb_owner : nat;
  cb_member_of : cb_member
}.

(** [struct device], as far as the driver reads it: [dev->config] (the
    constant configuration) and [dev->data] (which data block). *)
Record device := {
  dev_config : indicator_led_config;
  dev_data : nat
}.

#[global] Instance gpio_dt_spec_eq_dec : EqDecision gpio_dt_spec.
Proof. solve_decision. Defined.
#[global] Instance gpio_flags_eq_dec : EqDecision gpio_flags_t.
Proof. solve_decision. Defined.
#[global] Instance cb_member_eq_dec : EqDecision cb_member.
Proof. solve_decision. Defined.
#[global] Instance cb_ptr_eq_dec : EqDecision cb_ptr.
Proof. solve_decision. Defined.

(** [ENODEV] of Zephyr's errno.h. *)
Definition ENODEV : Z := 19.

(** [BIT(n)] is [1UL << n]; a [gpio_port_pins_t] keeps its low 32 bits. *)
Definition BIT (n : Z) : Z := Z.shiftl 1 n.
Definition to_port_pins (m : Z) : Z := Z.land m (Z.ones 32).

(** ** Observable events *)

Inductive log_level := LOG_LEVEL_ERR | LOG_LEVEL_INF | LOG_LEVEL_DBG.

#[global] Instance log_level_eq_dec : EqDecision log_level.
Proof. solve_decision. Defined.

(** One event per call into the GPIO layer, carrying the arguments and
    what the call returned, and one per log message, carrying the format
    string and the arguments. *)
Inductive event :=
| EvIsReady (spec : gpio_dt_spec) (ready : bool)
| EvConfigure (spec : gpio_dt_spec) (flags : gpio_flags_t) (status : Z)
| EvIntConfigure (spec : gpio_dt_spec) (flags : gpio_flags_t) (status : Z)
| EvGet (spec : gpio_dt_spec) (value : Z)
| EvSet (spec : gpio_dt_spec) (value : Z) (status : Z)
| EvInitCallback (cb : cb_ptr) (h : gpio_callback_handler_t) (mask : Z)
| EvAddCallback (port : nat) (cb : cb_ptr) (status : Z)
| EvLog (level : log_level) (fmt : string) (args : list Z).

(** ** The GPIO layer

    What the hardware abstraction answers, as functions of an abstract
    hardware state [W].  A C [int] result is a [Z]; the driver only
    compares results with 0 and 1, which agrees with the comparison of
    the machine integers. *)
Class Gpio (W : Type) := {
  hw_is_ready : gpio_dt_spec -> W -> bool * W;
  hw_pin_configure : gpio_dt_spec -> gpio_flags_t -> W -> Z * W;
  hw_pin_interrupt_configure : gpio_dt_spec -> gpio_flags_t -> W -> Z * W;
  hw_pin_get : gpio_dt_spec -> W -> Z * W;
  hw_pin_set : gpio_dt_spec -> Z -> W -> Z * W;
  hw_add_callback : nat -> cb_ptr -> W -> Z * W
}.

(** What the GPIO layer passes to a callback when an edge occurs: the
    controller, the registered callback structure and the pins that
    changed. *)
Record edge := {
  edge_port : nat;
  edge_cb : cb_ptr;
  edge_pins : Z
}.

(** ** The driver *)

Section Driver.
Context {W : Type} `{Gpio W}.

(** The hardware and the driver's static data blocks, one per instance. *)
Record state := {
  world : W;
  store : nat -> indicator_led_data
}.

(** Driver code: from a state to a result, the next state and the events
    emitted on the way. *)
Definition M (A : Type) : Type := state -> A * state * list event.

Definition ret {A} (a : A) : M A := fun s => (a, s, []).

Definition bind {A B} (m : M A) (k : A -> M B) : M B :=
  fun s =>
    let '(a, s1, e1) := m s in
    let '(b, s2, e2) := k a s1 in
    (b, s2, e1 ++ e2).

Notation "x <- m ;; k" := (bind m (fun x => k))
  (at level 100, m at next level, right associativity).
Notation "m ;;; k" := (bind m (fun _ => k))
  (at level 100, right associativity).

(** A call into the GPIO layer: run it on the hardware, record it. *)
Definition hw_call {A} (f : W -> A * W) (ev : A -> event) : M A :=
  fun s =>
    let '(a, w) := f (world s) in
    (a, {| world := w; store := store s |}, [ev a]).

Definition gpio_is_ready_dt (spec : gpio_dt_spec) : M bool :=
  hw_call (hw_is_ready spec) (EvIsReady spec).

Definition gpio_pin_configure_dt (spec : gpio_dt_spec) (flags : gpio_flags_t) : M Z :=
  hw_call (hw_pin_configure spec flags) (EvConfigure spec flags).

Definition gpio_pin_interrupt_configure_dt (spec : gpio_dt_spec) (flags : gpio_flags_t) : M Z :=
  hw_call (hw_pin_interrupt_configure spec flags) (EvIntConfigure spec flags).

Definition gpio_pin_get_dt (spec : gpio_dt_spec) : M Z :=
  hw_call (hw_pin_get spec) (EvGet spec).

Definition gpio_pin_set_dt (spec : gpio_dt_spec) (value : Z) : M Z :=
  hw_call (hw_pin_set spec value) (EvSet spec value).

Definition gpio_add_callback (port : nat) (cb : cb_ptr) : M Z :=
  hw_call (hw_add_callback port cb) (EvAddCallback port cb).

Definition LOG_ERR (fmt : string) (args : list Z) : M unit :=
  fun s => (tt, s, [EvLog LOG_LEVEL_ERR fmt args]).
Definition LOG_INF (fmt : string) (args : list Z) : M unit :=
  fun s => (tt, s, [EvLog LOG_LEVEL_INF fmt args]).
Definition LOG_DBG (fmt : string) (args : list Z) : M unit :=
  fun s => (tt, s, [EvLog LOG_LEVEL_DBG fmt args]).

(** A store to a member of the data block [p] points to. *)
Definition modify_data (p : nat) (f : indicator_led_data -> indicator_led_data) : M unit :=
  fun s => (tt, {| world := world s; store := <[p := f (store s p)]> (store s) |}, []).

Definition set_config (c : indicator_led_config) (d : indicator_led_data) : indicator_led_data :=
  {| config := Some c; stat1_cb := stat1_cb d; stat2_cb := stat2_cb d |}.

Definition set_callback (m : cb_member) (c : gpio_callback) (d : indicator_led_data)
  : indicator_led_data :=
  match m with
  | Member_stat1_cb => {| config := config d; stat1_cb := c; stat2_cb := stat2_cb d |}
  | Member_stat2_cb => {| config := config d; stat1_cb := stat1_cb d; stat2_cb := c |}
  end.

(** [gpio_init_callback] (an inline function of Zephyr's gpio.h) stores the
    handler and the mask in the callback structure. *)
Definition gpio_init_callback (cb : cb_ptr) (h : gpio_callback_handler_t) (mask : Z) : M unit :=
  modify_data (cb_owner cb)
    (set_callback (cb_member_of cb)
       {| handler := Some h; pin_mask := to_port_pins mask |}) ;;;
  fun s => (tt, s, [EvInitCallback cb h mask]).

(** [static void update_led_state(const struct indicator_led_config *config)] *)
Definition update_led_state (config : indicator_led_config) : M unit :=
  stat1 <- gpio_pin_get_dt (stat1_gpio config) ;;
  stat2 <- gpio_pin_get_dt (stat2_gpio config) ;;
  if (stat1 <? 0) || (stat2 <? 0) then
    LOG_ERR "Failed to read STAT pins" []
  else
    let led_state := if (stat1 =? 1) && (stat2 =? 1) then 1 else 0 in
    _ <- gpio_pin_set_dt (led_gpio config) led_state ;;
    LOG_DBG "STAT1=%d, STAT2=%d -> LED=%d" [stat1; stat2; led_state].

(** [CONTAINER_OF(cb, struct indicator_led_data, member)]: the block that
    holds [cb] as its [member].  It is defined only for a pointer to that
    member; the subtraction of the offset is meaningless for any other. *)
Definition CONTAINER_OF (cb : cb_ptr) (member : cb_member) : option nat :=
  if decide (cb_member_of cb = member) then Some (cb_owner cb) else None.

(** [static void stat1_gpio_callback(const struct device *port,
    struct gpio_callback *cb, uint32_t pins)].  [None] is undefined
    behaviour: a [cb] that is not a [stat1_cb] member, or a NULL
    [data->config]. *)
Definition stat1_gpio_callback (port : nat) (cb : cb_ptr) (pins : Z)
  : state -> option (unit * state * list event) :=
  fun s =>
    match CONTAINER_OF cb Member_stat1_cb with
    | Some data =>
        match config (store s data) with
        | Some data_config => Some (update_led_state data_config s)
        | None => None
        end
    | None => None
    end.

(** [static void stat2_gpio_callback(const struct device *port,
    struct gpio_callback *cb, uint32_t pins)] *)
Definition stat2_gpio_callback (port : nat) (cb : cb_ptr) (pins : Z)
  : state -> option (unit * state * list event) :=
  fun s =>
    match CONTAINER_OF cb Member_stat2_cb with
    | Some data =>
        match config (store s data) with
        | Some data_config => Some (update_led_state data_config s)
        | None => None
        end
    | None => None
    end.

(** A call through a stored handler address. *)
Definition call_handler (h : gpio_callback_handler_t)
  : nat -> cb_ptr -> Z -> state -> option (unit * state * list event) :=
  match h with
  | Fn_stat1_gpio_callback => stat1_gpio_callback
  | Fn_stat2_gpio_callback => stat2_gpio_callback
  end.

(** The member of a data block a callback pointer designates. *)
Definition get_callback (m : cb_member) (d : indicator_led_data) : gpio_callback :=
  match m with
  | Member_stat1_cb => stat1_cb d
  | Member_stat2_cb => stat2_cb d
  end.

(** An edge on a pin, as the GPIO layer delivers it to a registered
    callback: [cb->handler(port, cb, pins)]. *)
Definition fire (port : nat) (cb : cb_ptr) (pins : Z)
  : state -> option (unit * state * list event) :=
  fun s =>
    match handler (get_callback (cb_member_of cb) (store s (cb_owner cb))) with
    | Some h => call_handler h port cb pins s
    | None => None
    end.

(** A run of edges, delivered one after the other; undefined as soon as
    one delivery is. *)
Fixpoint deliver (edges : list edge) (s : state) : option (state * list event) :=
  match edges with
  | [] => Some (s, [])
  | e :: rest =>
      match fire (edge_port e) (edge_cb e) (edge_pins e) s with
      | Some (_, s1, evs1) =>
          match deliver rest s1 with
          | Some (s2, evs2) => Some (s2, evs1 ++ evs2)
          | None => None
          end
      | None => None
      end
  end.

(** [&data->stat1_cb] and [&data->stat2_cb] *)
Definition addr_stat1_cb (data : nat) : cb_ptr :=
  {| cb_owner := data; cb_member_of := Member_stat1_cb |}.
Definition addr_stat2_cb (data : nat) : cb_ptr :=
  {| cb_owner := data; cb_member_of := Member_stat2_cb |}.

(** [static int indicator_led_init(const struct device *dev)] *)
Definition indicator_led_init (dev : device) : M Z :=
  let config := dev_config dev in
  let data := dev_data dev in
  modify_data data (set_config config) ;;;
  (* Configure LED GPIO as output *)
  ready <- gpio_is_ready_dt (led_gpio config) ;;
  if negb ready then
    LOG_ERR "LED GPIO not ready" [] ;;; ret (- ENODEV)
  else
  r <- gpio_pin_configure_dt (led_gpio config) GPIO_OUTPUT_INACTIVE ;;
  if r <? 0 then
    LOG_ERR "Failed to configure LED GPIO: %d" [r] ;;; ret r
  else
  (* Configure STAT1 GPIO as input with interrupt *)
  ready <- gpio_is_ready_dt (stat1_gpio config) ;;
  if negb ready then
    LOG_ERR "STAT1 GPIO not ready" [] ;;; ret (- ENODEV)
  else
  r <- gpio_pin_configure_dt (stat1_gpio config) GPIO_INPUT ;;
  if r <? 0 then
    LOG_ERR "Failed to configure STAT1 GPIO: %d" [r] ;;; ret r
  else
  r <- gpio_pin_interrupt_configure_dt (stat1_gpio config) GPIO_INT_EDGE_BOTH ;;
  if r <? 0 then
    LOG_ERR "Failed to configure STAT1 interrupt: %d" [r] ;;; ret r
  else
  (* Configure STAT2 GPIO as input with interrupt *)
  ready <- gpio_is_ready_dt (stat2_gpio config) ;;
  if negb ready then
    LOG_ERR "STAT2 GPIO not ready" [] ;;; ret (- ENODEV)
  else
  r <- gpio_pin_configure_dt (stat2_gpio config) GPIO_INPUT ;;
  if r <? 0 then
    LOG_ERR "Failed to configure STAT2 GPIO: %d" [r] ;;; ret r
  else
  r <- gpio_pin_interrupt_configure_dt (stat2_gpio config) GPIO_INT_EDGE_BOTH ;;
  if r <? 0 then
    LOG_ERR "Failed to configure STAT2 interrupt: %d" [r] ;;; ret r
  else
  (* Setup GPIO callbacks *)
  gpio_init_callback (addr_stat1_cb data) Fn_stat1_gpio_callback
    (BIT (pin (stat1_gpio config))) ;;;
  _ <- gpio_add_callback (port (stat1_gpio config)) (addr_stat1_cb data) ;;
  gpio_init_callback (addr_stat2_cb data) Fn_stat2_gpio_callback
    (BIT (pin (stat2_gpio config))) ;;;
  _ <- gpio_add_callback (port (stat2_gpio config)) (addr_stat2_cb data) ;;
  (* Set initial LED state *)
  update_led_state config ;;;
  LOG_INF "Indicator LED initialized" [] ;;;
  ret 0.

End Driver.

Arguments state W : clear implicits.

(** ** Observations on a run *)

Section Observations.
Context {W : Type}.

Definition ret_of {A} (r : A * state W * list event) : A := fst (fst r).
Definition state_after {A} (r : A * state W * list event) : state W := snd (fst r).
Definition events_of {A} (r : A * state W * list event) : list event := snd r.

End Observations.

Section SetupWorld.
Context {W : Type} `{Gpio W}.

(** The hardware state in which the startup reads are made: the state
    the setup calls of a complete bring-up leave, one after the other. *)
Definition world_after_setup (dev : device) (w : W) : W :=
  let config := dev_config dev in
  let data := dev_data dev in
  let w := snd (hw_is_ready (led_gpio config) w) in
  let w := snd (hw_pin_configure (led_gpio config) GPIO_OUTPUT_INACTIVE w) in
  let w := snd (hw_is_ready (stat1_gpio config) w) in
  let w := snd (hw_pin_configure (stat1_gpio config) GPIO_INPUT w) in
  let w := snd (hw_pin_interrupt_configure (stat1_gpio config) GPIO_INT_EDGE_BOTH w) in
  let w := snd (hw_is_ready (stat2_gpio config) w) in
  let w := snd (hw_pin_configure (stat2_gpio config) GPIO_INPUT w) in
  let w := snd (hw_pin_interrupt_configure (stat2_gpio config) GPIO_INT_EDGE_BOTH w) in
  let w := snd (hw_add_callback (port (stat1_gpio config)) (addr_stat1_cb data) w) in
  snd (hw_add_callback (port (stat2_gpio config)) (addr_stat2_cb data) w).

End SetupWorld.

(** The reads of the trace: pin and value returned. *)
Definition pin_reads (evs : list event) : list (gpio_dt_spec * Z) :=
  omap (fun ev => match ev with EvGet spec v => Some (spec, v) | _ => None end) evs.

(** The writes of the trace: pin and value written. *)
Definition pin_writes (evs : list event) : list (gpio_dt_spec * Z) :=
  omap (fun ev => match ev with EvSet spec v _ => Some (spec, v) | _ => None end) evs.

(** What the GPIO layer answered to each write. *)
Definition write_statuses (evs : list event) : list Z :=
  omap (fun ev => match ev with EvSet _ _ st => Some st | _ => None end) evs.

(** The log messages of a given severity. *)
Definition logs (level : log_level) (evs : list event) : list (string * list Z) :=
  omap (fun ev => match ev with
                  | EvLog l fmt args =>
                      if decide (l = level) then Some (fmt, args) else None
                  | _ => None
                  end) evs.

(** The level of an output pin after a trace, from its level before: a
    write the GPIO layer accepted sets it, an accepted configuration as
    an inactive output puts it at 0, and a call the GPIO layer rejected
    leaves it. *)
Fixpoint output_level (spec : gpio_dt_spec) (prior : Z) (evs : list event) : Z :=
  match evs with
  | [] => prior
  | EvSet spec' v st :: evs' =>
      output_level spec
        (if decide (spec' = spec) then (if st <? 0 then prior else v) else prior) evs'
  | EvConfigure spec' GPIO_OUTPUT_INACTIVE st :: evs' =>
      output_level spec
        (if decide (spec' = spec) then (if st <? 0 then prior else 0) else prior) evs'
  | _ :: evs' => output_level spec prior evs'
  end.

(** The callback registrations of the trace: controller and structure. *)
Definition registrations (evs : list event) : list (nat * cb_ptr) :=
  omap (fun ev => match ev with EvAddCallback p cb _ => Some (p, cb) | _ => None end) evs.

(** A data block ready to serve edges for [dev]: it points to the
    device's configuration, and each callback structure holds the handler
    that recovers the block from that very structure. *)
Definition armed (dev : device) (d : indicator_led_data) : Prop :=
  config d = Some (dev_config dev)
  /\ handler (stat1_cb d) = Some Fn_stat1_gpio_callback
  /\ handler (stat2_cb d) = Some Fn_stat2_gpio_callback.

(** An edge addressed to one of the two callback structures of [dev]. *)
Definition edge_of (dev : device) (e : edge) : Prop :=
  edge_cb e = addr_stat1_cb (dev_data dev) \/ edge_cb e = addr_stat2_cb (dev_data dev).

(** A call into the GPIO layer, without what it returned. *)
Inductive call :=
| CallIsReady (spec : gpio_dt_spec)
| CallConfigure (spec : gpio_dt_spec) (flags : gpio_flags_t)
| CallIntConfigure (spec : gpio_dt_spec) (flags : gpio_flags_t)
| CallGet (spec : gpio_dt_spec)
| CallSet (spec : gpio_dt_spec)
| CallInitCallback (cb : cb_ptr) (h : gpio_callback_handler_t) (mask : Z)
| CallAddCallback (port : nat) (cb : cb_ptr).

Definition call_of (ev : event) : option call :=
  match ev with
  | EvIsReady spec _ => Some (CallIsReady spec)
  | EvConfigure spec flags _ => Some (CallConfigure spec flags)
  | EvIntConfigure spec flags _ => Some (CallIntConfigure spec flags)
  | EvGet spec _ => Some (CallGet spec)
  | EvSet spec _ _ => Some (CallSet spec)
  | EvInitCallback cb h mask => Some (CallInitCallback cb h mask)
  | EvAddCallback port cb _ => Some (CallAddCallback port cb)
  | EvLog _ _ _ => None
  end.

Definition calls (evs : list event) : list call := omap call_of evs.

(** The configuration steps of bring-up and the LED write: every call
    but the readiness queries and the reads. *)
Definition is_configuration_step (ev : event) : bool :=
  match ev with
  | EvConfigure _ _ _ | EvIntConfigure _ _ _
  | EvInitCallback _ _ _ | EvAddCallback _ _ _ | EvSet _ _ _ => true
  | _ => false
  end.

(** The status of a pin-configure or interrupt-configure call. *)
Definition configure_status (ev : event) : option Z :=
  match ev with
  | EvConfigure _ _ st | EvIntConfigure _ _ st => Some st
  | _ => None
  end.

(** The failure code of a step whose outcome bring-up inspects: a
    controller that is not ready, a negative configuration status. *)
Definition checked_failure (ev : event) : option Z :=
  match ev with
  | EvIsReady _ false => Some (- ENODEV)
  | EvConfigure _ _ st | EvIntConfigure _ _ st => if st <? 0 then Some st else None
  | _ => None
  end.

(** The first such failure of a trace. *)
Fixpoint first_checked_failure (evs : list event) : option Z :=
  match evs with
  | [] => None
  | ev :: evs' =>
      match checked_failure ev with
      | Some code => Some code
      | None => first_checked_failure evs'
      end
  end.

(** Any step that did not do what was asked of it, inspected or not: also
    a callback registration, a read or a write with a negative status. *)
Definition step_failed (ev : event) : bool :=
  match ev with
  | EvIsReady _ ready => negb ready
  | EvConfigure _ _ st | EvIntConfigure _ _ st
  | EvAddCallback _ _ st | EvSet _ _ st => st <? 0
  | EvGet _ v => v <? 0
  | _ => false
  end.

Definition every_step_succeeded (evs : list event) : bool :=
  forallb (fun ev => negb (step_failed ev)) evs.

(** The order of the calls of a complete bring-up. *)
Definition init_sequence (dev : device) : list call :=
  let config := dev_config dev in
  let data := dev_data dev in
  [ CallIsReady (led_gpio config);
    CallConfigure (led_gpio config) GPIO_OUTPUT_INACTIVE;
    CallIsReady (stat1_gpio config);
    CallConfigure (stat1_gpio config) GPIO_INPUT;
    CallIntConfigure (stat1_gpio config) GPIO_INT_EDGE_BOTH;
    CallIsReady (stat2_gpio config);
    CallConfigure (stat2_gpio config) GPIO_INPUT;
    CallIntConfigure (stat2_gpio config) GPIO_INT_EDGE_BOTH;
    CallInitCallback (addr_stat1_cb data) Fn_stat1_gpio_callback
      (BIT (pin (stat1_gpio config)));
    CallAddCallback (port (stat1_gpio config)) (addr_stat1_cb data);
    CallInitCallback (addr_stat2_cb data) Fn_stat2_gpio_callback
      (BIT (pin (stat2_gpio config)));
    CallAddCallback (port (stat2_gpio config)) (addr_stat2_cb data);
    CallGet (stat1_gpio config);
    CallGet (stat2_gpio config);
    CallSet (led_gpio config) ].

(** ** A simulated board

    One implementation of the GPIO layer, used to run the driver on
    concrete inputs: each call answers as the board is set up to, an
    accepted write drives the pin, an accepted registration is kept. *)

Module Board.

Record board := {
  ready : gpio_dt_spec -> bool;
  configure_answer : gpio_dt_spec -> Z;
  interrupt_answer : gpio_dt_spec -> Z;
  input : gpio_dt_spec -> Z;
  write_answer : Z;
  add_callback_answer : Z;
  output : gpio_dt_spec -> Z;
  registered : list cb_ptr
}.

Definition drive (spec : gpio_dt_spec) (v : Z) (b : board) : board :=
  {| ready := ready b; configure_answer := configure_answer b;
     interrupt_answer := interrupt_answer b; input := input b;
     write_answer := write_answer b; add_callback_answer := add_callback_answer b;
     output := <[spec := v]> (output b); registered := registered b |}.

Definition register (cb : cb_ptr) (b : board) : board :=
  {| ready := ready b; configure_answer := configure_answer b;
     interrupt_answer := interrupt_answer b; input := input b;
     write_answer := write_answer b; add_callback_answer := add_callback_answer b;
     output := output b; registered := cb :: registered b |}.

#[global] Instance board_gpio : Gpio board := {|
  hw_is_ready spec b := (ready b spec, b);
  hw_pin_configure spec flags b :=
    (configure_answer b spec,
     match flags with
     | GPIO_OUTPUT_INACTIVE =>
         if configure_answer b spec <? 0 then b else drive spec 0 b
     | _ => b
     end);
  hw_pin_interrupt_configure spec _ b := (interrupt_answer b spec, b);
  hw_pin_get spec b := (input b spec, b);
  hw_pin_set spec v b :=
    (write_answer b, if write_answer b <? 0 then b else drive spec v b);
  hw_add_callback _ cb b :=
    (add_callback_answer b, if add_callback_answer b <? 0 then b else register cb b)
|}.

(** The LED on pin 13 and STAT1 on pin 4 of controller 0, STAT2 on pin 7
    of controller 1; one driver instance, with data block 0. *)
Definition led0 : gpio_dt_spec := {| port := 0; pin := 13; dt_flags := 0 |}.
Definition stat1_0 : gpio_dt_spec := {| port := 0; pin := 4; dt_flags := 0 |}.
Definition stat2_0 : gpio_dt_spec := {| port := 1; pin := 7; dt_flags := 0 |}.

Definition config0 : indicator_led_config :=
  {| led_gpio := led0; stat1_gpio := stat1_0; stat2_gpio := stat2_0 |}.

Definition dev0 : device := {| dev_config := config0; dev_data := 0 |}.

(** A board on which every controller is ready and every call succeeds,
    with the two inputs answering [in1] and [in2]. *)
Definition healthy (in1 in2 : Z) : board :=
  {| ready := fun _ => true;
     configure_answer := fun _ => 0;
     interrupt_answer := fun _ => 0;
     input := fun spec => if pin spec =? 4 then in1 else if pin spec =? 7 then in2 else 0;
     write_answer := 0;
     add_callback_answer := 0;
     output := fun _ => 0;
     registered := [] |}.

(** The same board with other answers to the calls that may fail. *)
Definition faulty (rdy : gpio_dt_spec -> bool) (cfg irq : gpio_dt_spec -> Z)
    (wr add : Z) (in1 in2 : Z) : board :=
  {| ready := rdy;
     configure_answer := cfg;
     interrupt_answer := irq;
     input := input (healthy in1 in2);
     write_answer := wr;
     add_callback_answer := add;
     output := fun _ => 0;
     registered := [] |}.

(** Power-up: the board, and zeroed driver data. *)
Definition boot (b : board) : state board :=
  {| world := b; store := fun _ => zero_data |}.

(** The inputs move to new levels. *)
Definition set_inputs (in1 in2 : Z) (s : state board) : state board :=
  {| world :=
       {| ready := ready (world s); configure_answer := configure_answer (world s);
          interrupt_answer := interrupt_answer (world s);
          input := input (healthy in1 in2);
          write_answer := write_answer (world s);
          add_callback_answer := add_callback_answer (world s);
          output := output (world s); registered := registered (world s) |};
     store := store s |}.

(** The LED level after an edge delivered to [cb], with the error
    messages the callback logged. *)
Definition led_after_edge (cb : cb_ptr) (s : state board)
  : option (Z * list (string * list Z) * state board) :=
  match fire 0 cb 0 s with
  | Some (_, s', evs) => Some (output (world s') led0, logs LOG_LEVEL_ERR evs, s')
  | None => None
  end.

(** STAT1 = 1 and STAT2 = 0 at power-up; then STAT2 rises; then STAT1
    falls; then STAT1 cannot be read while STAT2 = 1.  The LED level
    after each step, and the error messages of the last. *)
Definition scenario : option (list Z * list (string * list Z)) :=
  let '(_, s0, _) := indicator_led_init dev0 (boot (healthy 1 0)) in
  match led_after_edge (addr_stat2_cb 0) (set_inputs 1 1 s0) with
  | Some (l1, _, s1) =>
      match led_after_edge (addr_stat1_cb 0) (set_inputs 0 1 s1) with
      | Some (l2, _, s2) =>
          match led_after_edge (addr_stat1_cb 0) (set_inputs (- 5) 1 s2) with
          | Some (l3, errors, _) =>
              Some ([output (world s0) led0; l1; l2; l3], errors)
          | None => None
          end
      | None => None
      end
  | None => None
  end.

Definition always_ready (spec : gpio_dt_spec) : bool := true.
Definition accepts (spec : gpio_dt_spec) : Z := 0.

(** Errno values of Zephyr used as answers below. *)
Definition EIO : Z := 5.
Definition EINVAL : Z := 22.
Definition ENOSYS : Z := 88.

(** STAT1 cannot be read. *)
Definition stat1_unreadable : board := healthy (- EIO) 1.

(** The LED write is rejected. *)
Definition led_write_rejected : board :=
  faulty always_ready accepts accepts (- EIO) 0 1 1.

(** The LED pin's controller is not ready. *)
Definition led_controller_down : board :=
  faulty (fun spec => negb (pin spec =? 13)) accepts accepts 0 0 1 1.

(** The interrupt of STAT2 cannot be configured. *)
Definition stat2_interrupt_rejected : board :=
  faulty always_ready accepts (fun spec => if pin spec =? 7 then - EINVAL else 0) 0 0 1 1.

(** STAT1 cannot be configured as an input. *)
Definition stat1_configure_rejected : board :=
  faulty always_ready (fun spec => if pin spec =? 4 then - EINVAL else 0) accepts 0 0 1 1.

(** Controller 1, which carries STAT2, is not ready. *)
Definition stat2_controller_down : board :=
  faulty (fun spec => negb (Nat.eqb (port spec) 1)) accepts accepts 0 0 1 1.

(** A second driver instance, with data block 1 and pins of its own. *)
Definition config1 : indicator_led_config :=
  {| led_gpio := {| port := 0; pin := 14; dt_flags := 0 |};
     stat1_gpio := {| port := 0; pin := 5; dt_flags := 0 |};
     stat2_gpio := {| port := 1; pin := 8; dt_flags := 0 |} |}.

Definition dev1 : device := {| dev_config := config1; dev_data := 1 |}.

(** An edge on STAT1 and an edge on STAT2 of the first instance. *)
Definition stat1_edge : edge :=
  {| edge_port := 0; edge_cb := addr_stat1_cb 0; edge_pins := 16 |}.
Definition stat2_edge : edge :=
  {| edge_port := 1; edge_cb := addr_stat2_cb 0; edge_pins := 128 |}.

(** The controllers do not implement callbacks, and STAT1 cannot be read. *)
Definition no_callbacks_no_stat1 : board :=
  faulty always_ready accepts accepts 0 (- ENOSYS) (- EIO) 1.

End Board.

(** ** The shape of a run *)

(** The two traces a re-evaluation can leave. *)
Inductive update_trace (config : indicator_led_config) : list event -> Prop :=
| update_read_error stat1 stat2 :
    stat1 < 0 \/ stat2 < 0 ->
    update_trace config
      [ EvGet (stat1_gpio config) stat1;
        EvGet (stat2_gpio config) stat2;
        EvLog LOG_LEVEL_ERR "Failed to read STAT pins" [] ]
| update_write stat1 stat2 status :
    0 <= stat1 -> 0 <= stat2 ->
    update_trace config
      [ EvGet (stat1_gpio config) stat1;
        EvGet (stat2_gpio config) stat2;
        EvSet (led_gpio config) (if (stat1 =? 1) && (stat2 =? 1) then 1 else 0) status;
        EvLog LOG_LEVEL_DBG "STAT1=%d, STAT2=%d -> LED=%d"
          [stat1; stat2; if (stat1 =? 1) && (stat2 =? 1) then 1 else 0] ].

(** The calls of bring-up up to and including the two registrations. *)
Definition setup_trace (dev : device) (r1 r2 r3 r4 r5 a1 a2 : Z) : list event :=
  let config := dev_config dev in
  let data := dev_data dev in
  [ EvIsReady (led_gpio config) true;
    EvConfigure (led_gpio config) GPIO_OUTPUT_INACTIVE r1;
    EvIsReady (stat1_gpio config) true;
    EvConfigure (stat1_gpio config) GPIO_INPUT r2;
    EvIntConfigure (stat1_gpio config) GPIO_INT_EDGE_BOTH r3;
    EvIsReady (stat2_gpio config) true;
    EvConfigure (stat2_gpio config) GPIO_INPUT r4;
    EvIntConfigure (stat2_gpio config) GPIO_INT_EDGE_BOTH r5;
    EvInitCallback (addr_stat1_cb data) Fn_stat1_gpio_callback
      (BIT (pin (stat1_gpio config)));
    EvAddCallback (port (stat1_gpio config)) (addr_stat1_cb data) a1;
    EvInitCallback (addr_stat2_cb data) Fn_stat2_gpio_callback
      (BIT (pin (stat2_gpio config)));
    EvAddCallback (port (stat2_gpio config)) (addr_stat2_cb data) a2 ].

(** The nine ways bring-up can go: the status returned and the trace. *)
Inductive init_trace (dev : device) : Z -> list event -> Prop :=
| init_led_not_ready :
    init_trace dev (- ENODEV)
      [ EvIsReady (led_gpio (dev_config dev)) false;
        EvLog LOG_LEVEL_ERR "LED GPIO not ready" [] ]
| init_led_configure r1 :
    r1 < 0 ->
    init_trace dev r1
      [ EvIsReady (led_gpio (dev_config dev)) true;
        EvConfigure (led_gpio (dev_config dev)) GPIO_OUTPUT_INACTIVE r1;
        EvLog LOG_LEVEL_ERR "Failed to configure LED GPIO: %d" [r1] ]
| init_stat1_not_ready r1 :
    0 <= r1 ->
    init_trace dev (- ENODEV)
      [ EvIsReady (led_gpio (dev_config dev)) true;
        EvConfigure (led_gpio (dev_config dev)) GPIO_OUTPUT_INACTIVE r1;
        EvIsReady (stat1_gpio (dev_config dev)) false;
        EvLog LOG_LEVEL_ERR "STAT1 GPIO not ready" [] ]
| init_stat1_configure r1 r2 :
    0 <= r1 -> r2 < 0 ->
    init_trace dev r2
      [ EvIsReady (led_gpio (dev_config dev)) true;
        EvConfigure (led_gpio (dev_config dev)) GPIO_OUTPUT_INACTIVE r1;
        EvIsReady (stat1_gpio (dev_config dev)) true;
        EvConfigure (stat1_gpio (dev_config dev)) GPIO_INPUT r2;
        EvLog LOG_LEVEL_ERR "Failed to configure STAT1 GPIO: %d" [r2] ]
| init_stat1_interrupt r1 r2 r3 :
    0 <= r1 -> 0 <= r2 -> r3 < 0 ->
    init_trace dev r3
      [ EvIsReady (led_gpio (dev_config dev)) true;
        EvConfigure (led_gpio (dev_config dev)) GPIO_OUTPUT_INACTIVE r1;
        EvIsReady (stat1_gpio (dev_config dev)) true;
        EvConfigure (stat1_gpio (dev_config dev)) GPIO_INPUT r2;
        EvIntConfigure (stat1_gpio (dev_config dev)) GPIO_INT_EDGE_BOTH r3;
        EvLog LOG_LEVEL_ERR "Failed to configure STAT1 interrupt: %d" [r3] ]
| init_stat2_not_ready r1 r2 r3 :
    0 <= r1 -> 0 <= r2 -> 0 <= r3 ->
    init_trace dev (- ENODEV)
      [ EvIsReady (led_gpio (dev_config dev)) true;
        EvConfigure (led_gpio (dev_config dev)) GPIO_OUTPUT_INACTIVE r1;
        EvIsReady (stat1_gpio (dev_config dev)) true;
        EvConfigure (stat1_gpio (dev_config dev)) GPIO_INPUT r2;
        EvIntConfigure (stat1_gpio (dev_config dev)) GPIO_INT_EDGE_BOTH r3;
        EvIsReady (stat2_gpio (dev_config dev)) false;
        EvLog LOG_LEVEL_ERR "STAT2 GPIO not ready" [] ]
| init_stat2_configure r1 r2 r3 r4 :
    0 <= r1 -> 0 <= r2 -> 0 <= r3 -> r4 < 0 ->
    init_trace dev r4
      [ EvIsReady (led_gpio (dev_config dev)) true;
        EvConfigure (led_gpio (dev_config dev)) GPIO_OUTPUT_INACTIVE r1;
        EvIsReady (stat1_gpio (dev_config dev)) true;
        EvConfigure (stat1_gpio (dev_config dev)) GPIO_INPUT r2;
        EvIntConfigure (stat1_gpio (dev_config dev)) GPIO_INT_EDGE_BOTH r3;
        EvIsReady (stat2_gpio (dev_config dev)) true;
        EvConfigure (stat2_gpio (dev_config dev)) GPIO_INPUT r4;
        EvLog LOG_LEVEL_ERR "Failed to configure STAT2 GPIO: %d" [r4] ]
| init_stat2_interrupt r1 r2 r3 r4 r5 :
    0 <= r1 -> 0 <= r2 -> 0 <= r3 -> 0 <= r4 -> r5 < 0 ->
    init_trace dev r5
      [ EvIsReady (led_gpio (dev_config dev)) true;
        EvConfigure (led_gpio (dev_config dev)) GPIO_OUTPUT_INACTIVE r1;
        EvIsReady (stat1_gpio (dev_config dev)) true;
        EvConfigure (stat1_gpio (dev_config dev)) GPIO_INPUT r2;
        EvIntConfigure (stat1_gpio (dev_config dev)) GPIO_INT_EDGE_BOTH r3;
        EvIsReady (stat2_gpio (dev_config dev)) true;
        EvConfigure (stat2_gpio (dev_config dev)) GPIO_INPUT r4;
        EvIntConfigure (stat2_gpio (dev_config dev)) GPIO_INT_EDGE_BOTH r5;
        EvLog LOG_LEVEL_ERR "Failed to configure STAT2 interrupt: %d" [r5] ]
| init_complete r1 r2 r3 r4 r5 a1 a2 update :
    0 <= r1 -> 0 <= r2 -> 0 <= r3 -> 0 <= r4 -> 0 <= r5 ->
    update_trace (dev_config dev) update ->
    init_trace dev 0
      (setup_trace dev r1 r2 r3 r4 r5 a1 a2 ++ update ++
       [ EvLog LOG_LEVEL_INF "Indicator LED initialized" [] ]).

(** ** Proof steps *)

Ltac unfold_driver :=
  unfold indicator_led_init, update_led_state, gpio_init_callback,
    gpio_add_callback, gpio_is_ready_dt, gpio_pin_configure_dt,
    gpio_pin_interrupt_configure_dt, gpio_pin_get_dt, gpio_pin_set_dt,
    LOG_ERR, LOG_INF, LOG_DBG, modify_data, hw_call, bind, ret,
    ret_of, state_after, events_of.

(** Name the answer of the next call into the GPIO layer. *)
Ltac hw_step :=
  match goal with
  | |- context [hw_is_ready ?a ?w] =>
      let E := fresh "Eready" in destruct (hw_is_ready a w) as [[] ?] eqn:E
  | |- context [hw_pin_configure ?a ?f ?w] =>
      let E := fresh "Ecfg" in destruct (hw_pin_configure a f w) as [? ?] eqn:E
  | |- context [hw_pin_interrupt_configure ?a ?f ?w] =>
      let E := fresh "Eirq" in destruct (hw_pin_interrupt_configure a f w) as [? ?] eqn:E
  | |- context [hw_pin_get ?a ?w] =>
      let E := fresh "Eget" in destruct (hw_pin_get a w) as [? ?] eqn:E
  | |- context [hw_pin_set ?a ?v ?w] =>
      let E := fresh "Eset" in destruct (hw_pin_set a v w) as [? ?] eqn:E
  | |- context [hw_add_callback ?p ?c ?w] =>
      let E := fresh "Eadd" in destruct (hw_add_callback p c w) as [? ?] eqn:E
  end; cbn [fst snd negb app world store].

(** The same, for a goal that also mentions later hardware states: the
    next call is the one made on the state at hand. *)
Ltac at_hand w :=
  first [ is_var w | match w with world ?s => is_var s end ].

Ltac hw_next :=
  match goal with
  | |- context [hw_is_ready ?a ?w] =>
      at_hand w;
      let E := fresh "Eready" in destruct (hw_is_ready a w) as [[] ?] eqn:E
  | |- context [hw_pin_configure ?a ?f ?w] =>
      at_hand w;
      let E := fresh "Ecfg" in destruct (hw_pin_configure a f w) as [? ?] eqn:E
  | |- context [hw_pin_interrupt_configure ?a ?f ?w] =>
      at_hand w;
      let E := fresh "Eirq" in destruct (hw_pin_interrupt_configure a f w) as [? ?] eqn:E
  | |- context [hw_add_callback ?p ?c ?w] =>
      at_hand w;
      let E := fresh "Eadd" in destruct (hw_add_callback p c w) as [? ?] eqn:E
  end; cbn [fst snd negb app world store].

(** Decide the next comparison the driver makes. *)
Ltac branch :=
  match goal with
  | |- context [if ?x <? 0 then _ else _] =>
      let L := fresh "Hneg" in destruct (Z.ltb_spec x 0) as [L | L]
  | |- context [if (?x <? 0) || (?y <? 0) then _ else _] =>
      let L := fresh "Hx" in let L' := fresh "Hy" in
      destruct (Z.ltb_spec x 0) as [L | L], (Z.ltb_spec y 0) as [L' | L']
  end; cbn [fst snd negb app orb world store].

Ltac run_driver := unfold_driver; cbn [fst snd negb app world store];
  repeat (first [hw_step | branch]).

(** Two answers of the GPIO layer to one call on one hardware state are
    the same answer. *)
Ltac same_answer :=
  repeat match goal with
  | H : (_, _) = (_, _) |- _ => injection H as ? ?; subst
  | H1 : ?f = (?a, ?b), H2 : ?f = (?c, ?d) |- _ =>
      rewrite H1 in H2; injection H2 as ? ?; subst
  end.

Lemma output_level_app spec prior evs1 evs2 :
  output_level spec prior (evs1 ++ evs2)
  = output_level spec (output_level spec prior evs1) evs2.
Proof.
  revert prior. induction evs1 as [| ev evs1 IH]; intros prior; [reflexivity |].
  destruct ev;
    try match goal with flags : gpio_flags_t |- _ => destruct flags end;
    cbn [app output_level]; apply IH.
Qed.

Section Runs.
Context {W : Type} `{Gpio W}.

Lemma update_led_state_trace config (s : state W) :
  update_trace config (events_of (update_led_state config s)).
Proof.
  run_driver; solve [ apply update_read_error; lia | apply update_write; lia ].
Qed.

Lemma update_led_state_store config (s : state W) :
  store (state_after (update_led_state config s)) = store s.
Proof. run_driver; reflexivity. Qed.

Lemma indicator_led_init_trace dev (s : state W) :
  init_trace dev (ret_of (indicator_led_init dev s))
    (events_of (indicator_led_init dev s)).
Proof.
  unfold indicator_led_init, gpio_init_callback, gpio_add_callback,
    gpio_is_ready_dt, gpio_pin_configure_dt, gpio_pin_interrupt_configure_dt,
    LOG_ERR, LOG_INF, modify_data, hw_call, bind, ret, ret_of, events_of.
  cbn [fst snd negb app world store].
  repeat (first [hw_step | branch]).
  all: try solve [constructor; lia].
  match goal with
  | |- context [update_led_state ?c ?s0] =>
      pose proof (update_led_state_trace c s0) as Hup;
      destruct (update_led_state c s0) as [[[] s'] update]
  end.
  cbn [fst snd app events_of] in *.
  match goal with
  | |- context [EvAddCallback _ (addr_stat1_cb _) ?a1 :: _ :: EvAddCallback _ _ ?a2 :: _] =>
      apply (init_complete dev _ _ _ _ _ a1 a2 update); solve [lia | assumption]
  end.
Qed.

(** A bring-up that returns 0 is the setup calls, then the startup
    re-evaluation on the hardware state the setup left, then the info
    message. *)
Lemma indicator_led_init_success_run dev (s : state W) :
  ret_of (indicator_led_init dev s) = 0 ->
  exists r1 r2 r3 r4 r5 a1 a2 s0,
    world s0 = world_after_setup dev (world s)
    /\ indicator_led_init dev s =
       (0, state_after (update_led_state (dev_config dev) s0),
        setup_trace dev r1 r2 r3 r4 r5 a1 a2 ++
        events_of (update_led_state (dev_config dev) s0) ++
        [ EvLog LOG_LEVEL_INF "Indicator LED initialized" [] ]).
Proof.
  unfold world_after_setup, indicator_led_init, gpio_init_callback,
    gpio_add_callback, gpio_is_ready_dt, gpio_pin_configure_dt,
    gpio_pin_interrupt_configure_dt, LOG_ERR, LOG_INF, modify_data, hw_call,
    bind, ret, ret_of.
  cbv zeta. cbn [fst snd negb app world store].
  repeat (first [branch | hw_next]).
  all: try (unfold ENODEV; intros Hret; exfalso; lia).
  intros _.
  match goal with
  | |- context [update_led_state ?c ?s0] =>
      do 7 eexists; exists s0;
      split; [reflexivity |];
      destruct (update_led_state c s0) as [[[] ?] ?];
      cbn [fst snd state_after events_of]; reflexivity
  end.
Qed.

(** Bring-up stores the configuration pointer first, on every path. *)
Lemma indicator_led_init_stores_config dev (s : state W) :
  config (store (state_after (indicator_led_init dev s)) (dev_data dev))
  = Some (dev_config dev).
Proof.
  unfold indicator_led_init, gpio_init_callback, gpio_add_callback,
    gpio_is_ready_dt, gpio_pin_configure_dt, gpio_pin_interrupt_configure_dt,
    LOG_ERR, LOG_INF, modify_data, hw_call, bind, ret, state_after.
  cbn [fst snd negb app world store].
  repeat (first [hw_step | branch]);
    try (cbn [addr_stat1_cb addr_stat2_cb cb_owner cb_member_of];
         rewrite ?fn_lookup_insert; reflexivity).
  match goal with
  | |- context [update_led_state ?c ?s0] =>
      pose proof (update_led_state_store c s0) as Hup;
      destruct (update_led_state c s0) as [[[] s'] update]
  end.
  cbn [fst snd state_after addr_stat1_cb addr_stat2_cb cb_owner cb_member_of store] in *.
  rewrite Hup, ?fn_lookup_insert. reflexivity.
Qed.

End Runs.

(** ** The re-evaluation *)

Section Reevaluation.
Context {W : Type} `{Gpio W}.


(** C2.  When the STAT1 read or the STAT2 read answers a negative status,
    [update_led_state] makes no call after the two reads: nothing is
    written and every output keeps its level, the one message
    "Failed to read STAT pins" goes out at error severity, and the
    operation returns to its caller with nothing to report (it is [void]). *)
Theorem update_led_state_read_error
    config (s : state W) stat1 stat2 w1 w2 :
  hw_pin_get (stat1_gpio config) (world s) = (stat1, w1) ->
  hw_pin_get (stat2_gpio config) w1 = (stat2, w2) ->
  stat1 < 0 \/ stat2 < 0 ->
  update_led_state config s =
    (tt, {| world := w2; store := store s |},
     [ EvGet (stat1_gpio config) stat1;
       EvGet (stat2_gpio config) stat2;
       EvLog LOG_LEVEL_ERR "Failed to read STAT pins" [] ])
  /\ pin_writes (events_of (update_led_state config s)) = []
  /\ logs LOG_LEVEL_ERR (events_of (update_led_state config s))
     = [("Failed to read STAT pins"%string, [])]
  /\ forall spec prior,
       output_level spec prior (events_of (update_led_state config s)) = prior.
Proof.
  intros Hget1 Hget2 Herr.
  assert (Hrun : update_led_state config s =
    (tt, {| world := w2; store := store s |},
     [ EvGet (stat1_gpio config) stat1;
       EvGet (stat2_gpio config) stat2;
       EvLog LOG_LEVEL_ERR "Failed to read STAT pins" [] ])).
  { run_driver; same_answer; solve [lia | reflexivity]. }
  rewrite Hrun. repeat split.
Qed.

(** C8.  [update_led_state] does not look at what the LED write returns:
    whatever status the GPIO layer answers, the run goes on in the same
    way, with the debug message (which does not mention the status) and
    the return, on the hardware state the write left; no error message is
    logged and nothing is reported to the caller. *)
Theorem update_led_state_ignores_write_status
    config (s : state W) stat1 stat2 w1 w2 status w3 :
  hw_pin_get (stat1_gpio config) (world s) = (stat1, w1) ->
  hw_pin_get (stat2_gpio config) w1 = (stat2, w2) ->
  0 <= stat1 -> 0 <= stat2 ->
  hw_pin_set (led_gpio config)
    (if (stat1 =? 1) && (stat2 =? 1) then 1 else 0) w2 = (status, w3) ->
  update_led_state config s =
    (tt, {| world := w3; store := store s |},
     [ EvGet (stat1_gpio config) stat1;
       EvGet (stat2_gpio config) stat2;
       EvSet (led_gpio config) (if (stat1 =? 1) && (stat2 =? 1) then 1 else 0) status;
       EvLog LOG_LEVEL_DBG "STAT1=%d, STAT2=%d -> LED=%d"
         [stat1; stat2; if (stat1 =? 1) && (stat2 =? 1) then 1 else 0] ])
  /\ logs LOG_LEVEL_ERR (events_of (update_led_state config s)) = [].
Proof.
  intros Hget1 Hget2 Hs1 Hs2 Hset.
  assert (Hrun : update_led_state config s =
    (tt, {| world := w3; store := store s |},
     [ EvGet (stat1_gpio config) stat1;
       EvGet (stat2_gpio config) stat2;
       EvSet (led_gpio config) (if (stat1 =? 1) && (stat2 =? 1) then 1 else 0) status;
       EvLog LOG_LEVEL_DBG "STAT1=%d, STAT2=%d -> LED=%d"
         [stat1; stat2; if (stat1 =? 1) && (stat2 =? 1) then 1 else 0] ])).
  { run_driver; same_answer; solve [lia | reflexivity]. }
  rewrite Hrun. split; reflexivity.
Qed.

(** C7.  Two invocations in a row with unchanged inputs (the second reads
    what the first read): the second writes what the first wrote, the same
    value to the same pin or nothing, makes the same calls, logs the same
    message once more and leaves the driver data as it was; and where the
    GPIO layer answers the write as it did at first, the second trace is
    the first one again and every output is at the level the first
    invocation left it at. *)
Theorem update_led_state_idempotent
    config (s s1 s2 : state W) evs1 evs2 :
  update_led_state config s = (tt, s1, evs1) ->
  update_led_state config s1 = (tt, s2, evs2) ->
  pin_reads evs2 = pin_reads evs1 ->
  pin_writes evs2 = pin_writes evs1
  /\ calls evs2 = calls evs1
  /\ (forall level, logs level evs2 = logs level evs1)
  /\ store s2 = store s
  /\ (write_statuses evs2 = write_statuses evs1 ->
      evs2 = evs1
      /\ forall spec prior,
           output_level spec prior (evs1 ++ evs2) = output_level spec prior evs1).
Proof.
  intros Hfirst Hsecond Hreads.
  pose proof (update_led_state_trace config s) as T1.
  pose proof (update_led_state_trace config s1) as T2.
  pose proof (update_led_state_store config s) as S1.
  pose proof (update_led_state_store config s1) as S2.
  rewrite Hfirst in T1, S1. rewrite Hsecond in T2, S2.
  cbn [events_of state_after fst snd] in *.
  assert (Hstore : store s2 = store s) by congruence.
  destruct T1 as [a b Ha | a b st Ha Hb], T2 as [a' b' Ha' | a' b' st' Ha' Hb'];
    cbn in Hreads; injection Hreads as -> ->; try lia.
  - split; [reflexivity | split; [reflexivity |]].
    split; [reflexivity | split; [assumption |]].
    intros _. split; [reflexivity | reflexivity].
  - split; [reflexivity | split; [reflexivity |]].
    split; [reflexivity | split; [assumption |]].
    cbn. intros Hst. injection Hst as ->.
    split; [reflexivity |].
    intros spec prior.
    destruct (decide (led_gpio config = spec)), (st <? 0); reflexivity.
Qed.

End Reevaluation.

(** ** The edge callbacks *)

Section Callbacks.
Context {W : Type} `{Gpio W}.

(** C10.  The two edge callbacks do the same thing.  On a data block whose
    configuration pointer is set, the STAT1 callback (entered with the
    block's [stat1_cb]) and the STAT2 callback (entered with its
    [stat2_cb]) each run [update_led_state] once, on that block's
    configuration, from the state they were entered in; so their results,
    the LED write included, are equal, whatever [port] and [pins] are. *)
Theorem stat_callbacks_equivalent
    (s : state W) data led_config port1 pins1 port2 pins2 :
  config (store s data) = Some led_config ->
  stat1_gpio_callback port1 (addr_stat1_cb data) pins1 s
    = Some (update_led_state led_config s)
  /\ stat2_gpio_callback port2 (addr_stat2_cb data) pins2 s
    = Some (update_led_state led_config s)
  /\ stat1_gpio_callback port1 (addr_stat1_cb data) pins1 s
    = stat2_gpio_callback port2 (addr_stat2_cb data) pins2 s.
Proof.
  intros Hconfig.
  unfold stat1_gpio_callback, stat2_gpio_callback, CONTAINER_OF.
  cbn [addr_stat1_cb addr_stat2_cb cb_member_of cb_owner].
  rewrite !decide_True by reflexivity.
  rewrite Hconfig. repeat split.
Qed.

End Callbacks.

(** ** Bring-up *)

(** Case analysis on how a bring-up went. *)
Ltac init_cases dev s Hupdate :=
  let T := fresh "T" in
  pose proof (indicator_led_init_trace dev s) as T;
  destruct (indicator_led_init dev s) as [[? ?] ?];
  cbn [ret_of events_of state_after fst snd] in *;
  destruct T as [ | | | | | | | | r1 r2 r3 r4 r5 a1 a2 update ? ? ? ? ? Hupdate ].

(** Give the part of a concrete trace that precedes its last [n] events. *)
Ltac split_trace :=
  match goal with
  | |- exists before _ _, ?l = before ++ [_] =>
      exists (removelast l); cbn [removelast]; eexists _, _; reflexivity
  | |- exists before _, ?l = before ++ [_; _] =>
      exists (removelast (removelast l)); cbn [removelast]; eexists; reflexivity
  end.

Section Bringup.
Context {W : Type} `{Gpio W}.

(** C3.  When STAT1 and STAT2 both read as 1 at the time bring-up makes
    its startup reads, that is in the hardware state its setup calls
    leave, a bring-up that returns success has written 1 to the LED pin:
    the GPIO layer has been asked to set the LED to 1 and the hardware is
    in the state that call left.  The write is bring-up's own, in its
    startup re-evaluation, which comes after the registration of both
    callbacks; the trace is the setup calls, the two registrations last
    among them, then the two reads, the write of 1 and the two messages.
    No callback has run; bring-up calls none.  Where the GPIO layer
    accepts the write, the LED is on when bring-up returns. *)
Theorem indicator_led_init_startup_sync
    dev (s : state W) w1 w2 status w3 :
  ret_of (indicator_led_init dev s) = 0 ->
  hw_pin_get (stat1_gpio (dev_config dev)) (world_after_setup dev (world s)) = (1, w1) ->
  hw_pin_get (stat2_gpio (dev_config dev)) w1 = (1, w2) ->
  hw_pin_set (led_gpio (dev_config dev)) 1 w2 = (status, w3) ->
  (exists r1 r2 r3 r4 r5 a1 a2,
     events_of (indicator_led_init dev s) =
       setup_trace dev r1 r2 r3 r4 r5 a1 a2 ++
       [ EvGet (stat1_gpio (dev_config dev)) 1;
         EvGet (stat2_gpio (dev_config dev)) 1;
         EvSet (led_gpio (dev_config dev)) 1 status;
         EvLog LOG_LEVEL_DBG "STAT1=%d, STAT2=%d -> LED=%d" [1; 1; 1];
         EvLog LOG_LEVEL_INF "Indicator LED initialized" [] ])
  /\ pin_writes (events_of (indicator_led_init dev s))
     = [ (led_gpio (dev_config dev), 1) ]
  /\ world (state_after (indicator_led_init dev s)) = w3
  /\ (0 <= status ->
      forall prior,
        output_level (led_gpio (dev_config dev)) prior
          (events_of (indicator_led_init dev s)) = 1).
Proof.
  intros Hret Hget1 Hget2 Hset.
  destruct (indicator_led_init_success_run dev s Hret)
    as (r1 & r2 & r3 & r4 & r5 & a1 & a2 & s0 & Hworld & Hrun).
  rewrite <- Hworld in Hget1.
  assert (Hupdate : update_led_state (dev_config dev) s0 =
    (tt, {| world := w3; store := store s0 |},
     [ EvGet (stat1_gpio (dev_config dev)) 1;
       EvGet (stat2_gpio (dev_config dev)) 1;
       EvSet (led_gpio (dev_config dev)) 1 status;
       EvLog LOG_LEVEL_DBG "STAT1=%d, STAT2=%d -> LED=%d" [1; 1; 1] ])).
  { unfold_driver. cbn [fst snd world store].
    rewrite Hget1. cbn [fst snd world store].
    rewrite Hget2. cbn. rewrite Hset. reflexivity. }
  rewrite Hrun, Hupdate. cbn [ret_of events_of state_after fst snd world].
  split; [exists r1, r2, r3, r4, r5, a1, a2; reflexivity |].
  split; [reflexivity |]. split; [reflexivity |].
  intros Hst prior. rewrite output_level_app. cbn [app output_level].
  rewrite decide_True by reflexivity.
  destruct (Z.ltb_spec status 0); [lia | reflexivity].
Qed.

(** C4.  With the LED pin's controller not ready, bring-up returns
    [-ENODEV], a negative code, after the readiness query and the message
    "LED GPIO not ready": no pin is configured, no interrupt, no callback
    is set up or registered, nothing is written.  Only the configuration
    pointer of the data block has been stored. *)
Theorem indicator_led_init_led_not_ready dev (s : state W) w1 :
  hw_is_ready (led_gpio (dev_config dev)) (world s) = (false, w1) ->
  indicator_led_init dev s =
    (- ENODEV,
     {| world := w1;
        store := <[dev_data dev := set_config (dev_config dev) (store s (dev_data dev))]>
                   (store s) |},
     [ EvIsReady (led_gpio (dev_config dev)) false;
       EvLog LOG_LEVEL_ERR "LED GPIO not ready" [] ])
  /\ - ENODEV < 0
  /\ Forall (fun ev => is_configuration_step ev = false)
       (events_of (indicator_led_init dev s)).
Proof.
  intros Hready.
  assert (Hrun : indicator_led_init dev s =
    (- ENODEV,
     {| world := w1;
        store := <[dev_data dev := set_config (dev_config dev) (store s (dev_data dev))]>
                   (store s) |},
     [ EvIsReady (led_gpio (dev_config dev)) false;
       EvLog LOG_LEVEL_ERR "LED GPIO not ready" [] ])).
  { unfold_driver. cbn [fst snd world store]. rewrite Hready. reflexivity. }
  rewrite Hrun. split; [reflexivity |]. split; [reflexivity |].
  repeat constructor.
Qed.

(** C5.  A pin-configure or interrupt-configure call of bring-up that
    answers a negative status ends it: bring-up returns that very status,
    and the call is followed by one error message carrying the status and
    by nothing else. *)
Theorem indicator_led_init_configure_failure dev (s : state W) ev status :
  In ev (events_of (indicator_led_init dev s)) ->
  configure_status ev = Some status ->
  status < 0 ->
  ret_of (indicator_led_init dev s) = status
  /\ exists before fmt,
       events_of (indicator_led_init dev s)
       = before ++ [ev; EvLog LOG_LEVEL_ERR fmt [status]].
Proof.
  intros Hin Hcfg Hneg. init_cases dev s Hupdate.
  1-8: cbn [In] in Hin;
    repeat (destruct Hin as [<- | Hin]; cbn in Hcfg;
            [ first [ discriminate Hcfg
                    | injection Hcfg as ->; first [ lia | split; [reflexivity | split_trace] ] ]
            | ]);
    destruct Hin.
  exfalso. destruct Hupdate; unfold setup_trace in Hin; cbn [In app] in Hin;
    repeat (destruct Hin as [<- | Hin]; cbn in Hcfg;
            [ first [ discriminate Hcfg | injection Hcfg as ->; lia ] | ]);
    destruct Hin.
Qed.

(** C9.  A read that answers a negative status during bring-up (there
    are reads only in the startup re-evaluation, which is reached when
    every configuration step has succeeded) does not fail bring-up: it
    returns 0, has written nothing, and has logged the read failure. *)
Theorem indicator_led_init_absorbs_read_error dev (s : state W) spec v :
  In (EvGet spec v) (events_of (indicator_led_init dev s)) ->
  v < 0 ->
  ret_of (indicator_led_init dev s) = 0
  /\ first_checked_failure (events_of (indicator_led_init dev s)) = None
  /\ pin_writes (events_of (indicator_led_init dev s)) = []
  /\ logs LOG_LEVEL_ERR (events_of (indicator_led_init dev s))
     = [("Failed to read STAT pins"%string, [])].
Proof.
  intros Hin Hneg. init_cases dev s Hupdate.
  1-8: exfalso; cbn [In] in Hin;
    repeat (destruct Hin as [Hin | Hin]; [discriminate Hin |]); destruct Hin.
  destruct Hupdate as [a b Herr | a b st Ha Hb].
  - split; [reflexivity |]. split.
    + unfold setup_trace. cbn.
      repeat match goal with
      | |- context [?x <? 0] => destruct (Z.ltb_spec x 0); [lia |]
      end. reflexivity.
    + split; reflexivity.
  - exfalso. unfold setup_trace in Hin. cbn [In app] in Hin.
    repeat (destruct Hin as [Hin | Hin];
            [ first [ discriminate Hin | injection Hin as ? ?; lia ] | ]).
    destruct Hin.
Qed.

(** C6, as the code has it.  Bring-up returns 0 exactly when no step whose
    outcome it inspects has failed: the three readiness queries and the
    five pin-configure and interrupt-configure calls.  Otherwise it returns
    the code of the first such failure, a negative one, and the last thing
    it did was to log an error message.  What the two registrations answer
    and how the startup re-evaluation goes play no part.  The calls are
    made in the order of [init_sequence], and a bring-up that returns 0 has
    made them all up to the two startup reads. *)
Theorem indicator_led_init_status dev (s s' : state W) ret evs :
  indicator_led_init dev s = (ret, s', evs) ->
  (ret = 0 <-> first_checked_failure evs = None)
  /\ (ret <> 0 ->
      first_checked_failure evs = Some ret
      /\ ret < 0
      /\ exists before fmt args, evs = before ++ [EvLog LOG_LEVEL_ERR fmt args])
  /\ calls evs `prefix_of` init_sequence dev
  /\ (ret = 0 -> take 14 (init_sequence dev) `prefix_of` calls evs).
Proof.
  intros Hrun.
  pose proof (indicator_led_init_trace dev s) as T. rewrite Hrun in T.
  cbn [ret_of events_of fst snd] in T. clear Hrun.
  destruct T as [ | | | | | | | | r1 r2 r3 r4 r5 a1 a2 update ? ? ? ? ? Hupdate ].
  9: destruct Hupdate; unfold setup_trace.
  all: cbn [first_checked_failure checked_failure app];
    repeat match goal with
    | |- context [?x <? 0] => destruct (Z.ltb_spec x 0); [lia |]
    | |- context [?x <? 0] => destruct (Z.ltb_spec x 0); [| lia]
    end;
    unfold ENODEV in *.
  all: split; [ split; intros; solve [ reflexivity | discriminate | lia ] | ].
  all: split;
    [ intros Hnz; first [ contradiction Hnz; reflexivity
                        | split; [reflexivity | split; [lia | split_trace]] ]
    | ].
  all: split; [ eexists; cbn; reflexivity | ].
  all: intros Hz; first [ eexists; cbn; reflexivity | exfalso; lia ].
Qed.

(** A bring-up that returns 0 leaves the data block of its instance with
    the configuration pointer set and the two callback structures filled:
    the STAT1 structure with [stat1_gpio_callback] and the bit of the
    STAT1 pin, the STAT2 structure with [stat2_gpio_callback] and the bit
    of the STAT2 pin.  The other data blocks are as they were. *)
Theorem indicator_led_init_fills_data dev (s : state W) :
  ret_of (indicator_led_init dev s) = 0 ->
  store (state_after (indicator_led_init dev s)) (dev_data dev) =
    {| config := Some (dev_config dev);
       stat1_cb := {| handler := Some Fn_stat1_gpio_callback;
                      pin_mask := to_port_pins (BIT (pin (stat1_gpio (dev_config dev)))) |};
       stat2_cb := {| handler := Some Fn_stat2_gpio_callback;
                      pin_mask := to_port_pins (BIT (pin (stat2_gpio (dev_config dev)))) |} |}
  /\ forall other, other <> dev_data dev ->
       store (state_after (indicator_led_init dev s)) other = store s other.
Proof.
  unfold indicator_led_init, gpio_init_callback, gpio_add_callback,
    gpio_is_ready_dt, gpio_pin_configure_dt, gpio_pin_interrupt_configure_dt,
    LOG_ERR, LOG_INF, modify_data, hw_call, bind, ret, ret_of, state_after.
  cbn [fst snd negb app world store].
  repeat (first [hw_step | branch]);
    try (unfold ENODEV; intros Hret; exfalso; lia).
  match goal with
  | |- context [update_led_state ?c ?s0] =>
      pose proof (update_led_state_store c s0) as Hup;
      destruct (update_led_state c s0) as [[[] s'] update]
  end.
  cbn [fst snd state_after addr_stat1_cb addr_stat2_cb cb_owner cb_member_of store] in *.
  intros _. rewrite Hup. split.
  - rewrite !fn_lookup_insert. reflexivity.
  - intros other Hother. rewrite !fn_lookup_insert_ne by congruence. reflexivity.
Qed.

End Bringup.

(** ** Further properties of the re-evaluation *)

Section ReevaluationEffects.
Context {W : Type} `{Gpio W}.

(** What a re-evaluation does and never does.  It leaves the driver data
    alone; it reads STAT1, then STAT2, once each, the second also when the
    first has failed; after the reads it makes no call, or one write to
    the LED pin; what it writes is 0 or 1; and no pin but the LED pin
    changes its level. *)
Theorem update_led_state_effects config (s : state W) :
  store (state_after (update_led_state config s)) = store s
  /\ (exists stat1 stat2,
        pin_reads (events_of (update_led_state config s))
        = [ (stat1_gpio config, stat1); (stat2_gpio config, stat2) ])
  /\ (calls (events_of (update_led_state config s))
      = [ CallGet (stat1_gpio config); CallGet (stat2_gpio config) ]
      \/ calls (events_of (update_led_state config s))
         = [ CallGet (stat1_gpio config); CallGet (stat2_gpio config);
             CallSet (led_gpio config) ])
  /\ (pin_writes (events_of (update_led_state config s)) = []
      \/ pin_writes (events_of (update_led_state config s)) = [ (led_gpio config, 0) ]
      \/ pin_writes (events_of (update_led_state config s)) = [ (led_gpio config, 1) ])
  /\ forall spec prior,
       spec <> led_gpio config ->
       output_level spec prior (events_of (update_led_state config s)) = prior.
Proof.
  split; [apply update_led_state_store |].
  pose proof (update_led_state_trace config s) as T.
  revert T. generalize (events_of (update_led_state config s)).
  intros evs [a b Herr | a b st Ha Hb].
  - split; [exists a, b; reflexivity |].
    split; [left; reflexivity |]. split; [left; reflexivity |].
    intros spec prior _. reflexivity.
  - split; [exists a, b; reflexivity |].
    split; [right; reflexivity |].
    split; [destruct ((a =? 1) && (b =? 1)); auto |].
    intros spec prior Hother. cbn.
    rewrite decide_False by congruence. reflexivity.
Qed.


End ReevaluationEffects.

Section ReevaluationInputs.
Context {W1 W2 : Type} `{Gpio W1} `{Gpio W2}.

(** Nothing but the two values read decides what a re-evaluation writes
    and logs: on any two GPIO layers, in any two states, runs that read
    the same values write the same value to the LED pin (or nothing) and
    log the same messages. *)
Theorem update_led_state_depends_only_on_reads
    config (s1 : state W1) (s2 : state W2) :
  pin_reads (events_of (update_led_state config s1))
    = pin_reads (events_of (update_led_state config s2)) ->
  pin_writes (events_of (update_led_state config s1))
    = pin_writes (events_of (update_led_state config s2))
  /\ forall level,
       logs level (events_of (update_led_state config s1))
       = logs level (events_of (update_led_state config s2)).
Proof.
  intros Hreads.
  pose proof (update_led_state_trace config s1) as T1.
  pose proof (update_led_state_trace config s2) as T2.
  revert T1 T2 Hreads.
  generalize (events_of (update_led_state config s1)).
  generalize (events_of (update_led_state config s2)).
  intros evs2 evs1 [a b Ha | a b st Ha Hb] [a' b' Ha' | a' b' st' Ha' Hb'] Hreads;
    cbn in Hreads; injection Hreads as -> ->; try lia;
    split; reflexivity.
Qed.

End ReevaluationInputs.

(** ** Further properties of bring-up *)

(** Run bring-up up to the startup re-evaluation, one goal per path. *)
Ltac run_init :=
  unfold indicator_led_init, gpio_init_callback, gpio_add_callback,
    gpio_is_ready_dt, gpio_pin_configure_dt, gpio_pin_interrupt_configure_dt,
    LOG_ERR, LOG_INF, modify_data, hw_call, bind, ret, ret_of, state_after;
  cbn [fst snd negb app world store];
  repeat (first [hw_step | branch]).

(** Name the outcome of the startup re-evaluation; it keeps the data. *)
Ltac name_update :=
  match goal with
  | |- context [update_led_state ?c ?s0] =>
      let Hup := fresh "Hup" in
      pose proof (update_led_state_store c s0) as Hup;
      destruct (update_led_state c s0) as [[[] ?] ?];
      cbn [fst snd state_after addr_stat1_cb addr_stat2_cb cb_owner cb_member_of store] in *;
      try rewrite Hup
  end.

Section BringupData.
Context {W : Type} `{Gpio W}.

Lemma indicator_led_init_other_blocks dev (s : state W) other :
  other <> dev_data dev ->
  store (state_after (indicator_led_init dev s)) other = store s other.
Proof.
  intros Hother. run_init; try name_update;
    cbn [addr_stat1_cb addr_stat2_cb cb_owner cb_member_of];
    rewrite !fn_lookup_insert_ne by congruence; reflexivity.
Qed.

Lemma indicator_led_init_success_block dev (s : state W) :
  ret_of (indicator_led_init dev s) = 0 ->
  store (state_after (indicator_led_init dev s)) (dev_data dev) =
    {| config := Some (dev_config dev);
       stat1_cb := {| handler := Some Fn_stat1_gpio_callback;
                      pin_mask := to_port_pins (BIT (pin (stat1_gpio (dev_config dev)))) |};
       stat2_cb := {| handler := Some Fn_stat2_gpio_callback;
                      pin_mask := to_port_pins (BIT (pin (stat2_gpio (dev_config dev)))) |} |}.
Proof.
  run_init; try (unfold ENODEV; intros Hret; exfalso; lia).
  name_update. intros _. rewrite !fn_lookup_insert. reflexivity.
Qed.

Lemma indicator_led_init_failure_block dev (s : state W) :
  ret_of (indicator_led_init dev s) <> 0 ->
  store (state_after (indicator_led_init dev s)) (dev_data dev)
  = set_config (dev_config dev) (store s (dev_data dev)).
Proof.
  run_init; try (intros _; rewrite fn_lookup_insert; reflexivity).
  name_update. intros Hret. contradiction Hret. reflexivity.
Qed.

Lemma indicator_led_init_arms dev (s : state W) :
  ret_of (indicator_led_init dev s) = 0 ->
  armed dev (store (state_after (indicator_led_init dev s)) (dev_data dev)).
Proof.
  intros Hret. rewrite (indicator_led_init_success_block dev s Hret).
  repeat split.
Qed.

(** An edge for an armed block re-evaluates the LED of its device. *)
Lemma fire_armed dev (s : state W) e :
  armed dev (store s (dev_data dev)) ->
  edge_of dev e ->
  fire (edge_port e) (edge_cb e) (edge_pins e) s
  = Some (update_led_state (dev_config dev) s).
Proof.
  intros (Hconfig & Hh1 & Hh2) [Hcb | Hcb]; unfold fire; rewrite Hcb;
    cbn [addr_stat1_cb addr_stat2_cb cb_owner cb_member_of get_callback].
  - rewrite Hh1. cbn [call_handler].
    unfold stat1_gpio_callback, CONTAINER_OF.
    cbn [addr_stat1_cb cb_owner cb_member_of].
    rewrite decide_True by reflexivity. cbn beta iota.
    rewrite Hconfig. reflexivity.
  - rewrite Hh2. cbn [call_handler].
    unfold stat2_gpio_callback, CONTAINER_OF.
    cbn [addr_stat2_cb cb_owner cb_member_of].
    rewrite decide_True by reflexivity. cbn beta iota.
    rewrite Hconfig. reflexivity.
Qed.

End BringupData.

Lemma to_port_pins_BIT p :
  0 <= p < 32 -> to_port_pins (BIT p) = 2 ^ p.
Proof.
  intros Hp. unfold to_port_pins, BIT.
  rewrite Z.shiftl_mul_pow2, Z.mul_1_l by lia.
  rewrite Z.land_ones by lia.
  apply Z.mod_small. split; [apply Z.pow_nonneg; lia |].
  apply Z.pow_lt_mono_r; lia.
Qed.

Section BringupEffects.
Context {W : Type} `{Gpio W}.

(** A readiness query that answers "not ready", for the LED, the STAT1 or
    the STAT2 controller, ends bring-up: it returns [-ENODEV], and the
    query is followed by one error message without arguments and by
    nothing else. *)
Theorem indicator_led_init_not_ready dev (s : state W) spec :
  In (EvIsReady spec false) (events_of (indicator_led_init dev s)) ->
  ret_of (indicator_led_init dev s) = - ENODEV
  /\ exists before fmt,
       events_of (indicator_led_init dev s)
       = before ++ [EvIsReady spec false; EvLog LOG_LEVEL_ERR fmt []].
Proof.
  intros Hin. init_cases dev s Hupdate.
  1-8: cbn [In] in Hin;
    repeat (destruct Hin as [Heq | Hin];
            [ first [ discriminate Heq
                    | injection Heq as <-; split; [reflexivity | split_trace] ]
            | ]);
    destruct Hin.
  exfalso. destruct Hupdate; unfold setup_trace in Hin; cbn [In app] in Hin;
    repeat (destruct Hin as [Heq | Hin]; [discriminate Heq |]);
    destruct Hin.
Qed.

(** A bring-up that fails has armed nothing: it has registered no
    callback, read no input and written no output.  No pin but the LED
    pin has changed its level; the LED pin is at the inactive level 0 if
    its configuration as an inactive output was accepted before the
    failure, and at the level it had otherwise.  The two callback
    structures of the data block are as they were.  (Its configuration
    pointer is set all the same.) *)
Theorem indicator_led_init_failure_effects dev (s : state W) :
  ret_of (indicator_led_init dev s) <> 0 ->
  registrations (events_of (indicator_led_init dev s)) = []
  /\ pin_reads (events_of (indicator_led_init dev s)) = []
  /\ pin_writes (events_of (indicator_led_init dev s)) = []
  /\ (forall spec prior,
        spec <> led_gpio (dev_config dev) ->
        output_level spec prior (events_of (indicator_led_init dev s)) = prior)
  /\ (forall prior,
        output_level (led_gpio (dev_config dev)) prior
          (events_of (indicator_led_init dev s)) = prior
        \/ output_level (led_gpio (dev_config dev)) prior
             (events_of (indicator_led_init dev s)) = 0)
  /\ (forall status,
        In (EvConfigure (led_gpio (dev_config dev)) GPIO_OUTPUT_INACTIVE status)
           (events_of (indicator_led_init dev s)) ->
        0 <= status ->
        forall prior,
          output_level (led_gpio (dev_config dev)) prior
            (events_of (indicator_led_init dev s)) = 0)
  /\ stat1_cb (store (state_after (indicator_led_init dev s)) (dev_data dev))
     = stat1_cb (store s (dev_data dev))
  /\ stat2_cb (store (state_after (indicator_led_init dev s)) (dev_data dev))
     = stat2_cb (store s (dev_data dev))
  /\ config (store (state_after (indicator_led_init dev s)) (dev_data dev))
     = Some (dev_config dev).
Proof.
  intros Hret.
  rewrite (indicator_led_init_failure_block dev s Hret).
  cut (registrations (events_of (indicator_led_init dev s)) = []
       /\ pin_reads (events_of (indicator_led_init dev s)) = []
       /\ pin_writes (events_of (indicator_led_init dev s)) = []
       /\ (forall spec prior,
             spec <> led_gpio (dev_config dev) ->
             output_level spec prior (events_of (indicator_led_init dev s)) = prior)
       /\ (forall prior,
             output_level (led_gpio (dev_config dev)) prior
               (events_of (indicator_led_init dev s)) = prior
             \/ output_level (led_gpio (dev_config dev)) prior
                  (events_of (indicator_led_init dev s)) = 0)
       /\ (forall status,
             In (EvConfigure (led_gpio (dev_config dev)) GPIO_OUTPUT_INACTIVE status)
                (events_of (indicator_led_init dev s)) ->
             0 <= status ->
             forall prior,
               output_level (led_gpio (dev_config dev)) prior
                 (events_of (indicator_led_init dev s)) = 0)).
  { intros (Hreg & Hreads & Hwrites & Hother & Hled & Hzero).
    repeat split; auto. }
  init_cases dev s Hupdate; [.. | contradiction Hret; reflexivity].
  all: split; [reflexivity |]; split; [reflexivity |]; split; [reflexivity |].
  all: split;
    [ intros spec prior Hother; cbn [output_level];
      rewrite ?decide_False by congruence; reflexivity | ].
  all: split;
    [ intros prior | intros status Hin Hst prior ];
    cbn [output_level]; rewrite ?decide_True by reflexivity;
    repeat match goal with
    | |- context [?x <? 0] => destruct (Z.ltb_spec x 0); [lia |]
    | |- context [?x <? 0] => destruct (Z.ltb_spec x 0); [| lia]
    end;
    auto.
  all: exfalso; cbn [In] in Hin;
    repeat (destruct Hin as [Heq | Hin];
            [ first [ discriminate Heq | injection Heq as ->; lia ] | ]);
    destruct Hin.
Qed.


(** The log of a bring-up tells how it went.  On success the message
    "Indicator LED initialized" is logged once, at info severity, as the
    last event.  On failure nothing is logged at info or debug severity
    and exactly one message at error severity, whose argument, when it has
    one, is the status returned; a message without argument goes with
    [-ENODEV]. *)
Theorem indicator_led_init_logs dev (s s' : state W) ret evs :
  indicator_led_init dev s = (ret, s', evs) ->
  (ret = 0 ->
     logs LOG_LEVEL_INF evs = [("Indicator LED initialized"%string, [])]
     /\ last evs = Some (EvLog LOG_LEVEL_INF "Indicator LED initialized" []))
  /\ (ret <> 0 ->
     logs LOG_LEVEL_INF evs = []
     /\ logs LOG_LEVEL_DBG evs = []
     /\ exists fmt args,
          logs LOG_LEVEL_ERR evs = [(fmt, args)]
          /\ (args = [ret] \/ (args = [] /\ ret = - ENODEV))).
Proof.
  intros Hrun.
  pose proof (indicator_led_init_trace dev s) as T. rewrite Hrun in T.
  cbn [ret_of events_of fst snd] in T. clear Hrun.
  destruct T as [ | | | | | | | | r1 r2 r3 r4 r5 a1 a2 update ? ? ? ? ? Hupdate ].
  1-8: split; [ intros Hz; exfalso; unfold ENODEV in Hz; lia | ];
    intros _; split; [reflexivity |]; split; [reflexivity |];
    eexists _, _; split; [reflexivity | auto].
  split; [| intros Hnz; contradiction Hnz; reflexivity].
  intros _. destruct Hupdate; split; reflexivity.
Qed.

(** The masks a successful bring-up stores select the pins: for pin
    numbers in the range of a 32-bit port, the mask of the STAT1
    structure is the single bit of the STAT1 pin and the mask of the STAT2
    structure the single bit of the STAT2 pin. *)
Theorem indicator_led_init_pin_masks dev (s : state W) :
  ret_of (indicator_led_init dev s) = 0 ->
  0 <= pin (stat1_gpio (dev_config dev)) < 32 ->
  0 <= pin (stat2_gpio (dev_config dev)) < 32 ->
  (forall i, 0 <= i ->
     Z.testbit
       (pin_mask (stat1_cb (store (state_after (indicator_led_init dev s)) (dev_data dev)))) i
     = (pin (stat1_gpio (dev_config dev)) =? i))
  /\ (forall i, 0 <= i ->
     Z.testbit
       (pin_mask (stat2_cb (store (state_after (indicator_led_init dev s)) (dev_data dev)))) i
     = (pin (stat2_gpio (dev_config dev)) =? i)).
Proof.
  intros Hret Hp1 Hp2.
  rewrite (indicator_led_init_success_block dev s Hret).
  cbn [stat1_cb stat2_cb pin_mask].
  rewrite !to_port_pins_BIT by assumption.
  split; intros i Hi; apply Z.pow2_bits_eqb; lia.
Qed.

(** Instances do not disturb each other: the bring-up of one device,
    however it ends, leaves the data block of a device with another block
    as it was, so that an edge for that device still re-evaluates that
    device's LED from that device's pins. *)
Theorem indicator_led_init_keeps_other_instances dev other (s : state W) e :
  dev_data other <> dev_data dev ->
  armed other (store s (dev_data other)) ->
  edge_of other e ->
  store (state_after (indicator_led_init dev s)) (dev_data other)
    = store s (dev_data other)
  /\ fire (edge_port e) (edge_cb e) (edge_pins e)
       (state_after (indicator_led_init dev s))
     = Some (update_led_state (dev_config other)
               (state_after (indicator_led_init dev s))).
Proof.
  intros Hother Harmed Hedge.
  pose proof (indicator_led_init_other_blocks dev s (dev_data other) Hother) as Hframe.
  split; [exact Hframe |].
  apply fire_armed; [rewrite Hframe; exact Harmed | exact Hedge].
Qed.

(** Edges after bring-up.  Once the data block of a device is armed, any
    run of edges addressed to its two callback structures is served
    without fault, each by one re-evaluation: the inputs are read in
    pairs, STAT1 then STAT2, once per edge; every write goes to the LED
    pin and is 0 or 1; nothing is configured or registered; and the
    driver data is left as it was, so the block stays armed. *)
Theorem deliver_armed dev (s : state W) edges :
  armed dev (store s (dev_data dev)) ->
  Forall (edge_of dev) edges ->
  exists s' evs,
    deliver edges s = Some (s', evs)
    /\ store s' = store s
    /\ map fst (pin_reads evs)
       = concat (map (fun _ => [ stat1_gpio (dev_config dev);
                                 stat2_gpio (dev_config dev) ]) edges)
    /\ Forall (fun w => w = (led_gpio (dev_config dev), 0)
                        \/ w = (led_gpio (dev_config dev), 1)) (pin_writes evs)
    /\ Forall (fun ev => is_configuration_step ev = true ->
                         exists v st, ev = EvSet (led_gpio (dev_config dev)) v st) evs.
Proof.
  intros Harmed Hedges. revert s Harmed.
  induction Hedges as [| e edges He Hedges IH]; intros s Harmed.
  - exists s, []. repeat split; constructor.
  - cbn [deliver]. rewrite (fire_armed dev s e Harmed He).
    pose proof (update_led_state_trace (dev_config dev) s) as T.
    pose proof (update_led_state_store (dev_config dev) s) as Hstore.
    destruct (update_led_state (dev_config dev) s) as [[[] s1] evs1].
    cbn [events_of state_after fst snd] in T, Hstore.
    destruct (IH s1) as (s2 & evs2 & Hrun & Hst & Hreads & Hwrites & Hsteps).
    { rewrite Hstore. exact Harmed. }
    rewrite Hrun. exists s2, (evs1 ++ evs2).
    split; [reflexivity |]. split; [congruence |].
    unfold pin_reads, pin_writes in *. rewrite !omap_app, map_app.
    rewrite Forall_app. rewrite Forall_app.
    destruct T as [a b Herr | a b st Ha Hb]; cbn [omap map fst concat app].
    + rewrite Hreads. repeat split; try assumption; try constructor.
      all: repeat constructor; cbn; intros; discriminate.
    + rewrite Hreads. repeat split; try assumption.
      * constructor; [| constructor].
        destruct ((a =? 1) && (b =? 1)); auto.
      * repeat constructor; cbn; intros; try discriminate. eauto.
Qed.

End BringupEffects.

(** ** Runs on the simulated board *)

Section BoardRuns.
Import Board.


(** STAT1 unreadable: nothing written. *)
Lemma update_led_state_read_error_stat1_unreadable :
  pin_writes (events_of (update_led_state config0 (boot stat1_unreadable))) = []
  /\ logs LOG_LEVEL_ERR (events_of (update_led_state config0 (boot stat1_unreadable)))
     = [("Failed to read STAT pins"%string, [])].
Proof.
  destruct (update_led_state_read_error config0 (boot stat1_unreadable)
              (- EIO) 1 stat1_unreadable stat1_unreadable)
    as (_ & Hwrites & Hlogs & _);
    [reflexivity | reflexivity | left; reflexivity | ].
  split; [exact Hwrites | exact Hlogs].
Defined.

(** The write of 1 rejected with [-EIO]: the debug message all the same. *)
Lemma update_led_state_ignores_write_status_rejected :
  update_led_state config0 (boot led_write_rejected) =
    (tt, boot led_write_rejected,
     [ EvGet stat1_0 1; EvGet stat2_0 1; EvSet led0 1 (- EIO);
       EvLog LOG_LEVEL_DBG "STAT1=%d, STAT2=%d -> LED=%d" [1; 1; 1] ])
  /\ logs LOG_LEVEL_ERR (events_of (update_led_state config0 (boot led_write_rejected))) = [].
Proof.
  apply (update_led_state_ignores_write_status config0 (boot led_write_rejected)
           1 1 led_write_rejected led_write_rejected (- EIO) led_write_rejected);
    [reflexivity | reflexivity | lia | lia | reflexivity].
Defined.

(** Twice in a row with STAT1 = 1 and STAT2 = 1: 1 is written again. *)
Lemma update_led_state_idempotent_both_high :
  pin_writes (events_of (update_led_state config0
                 (state_after (update_led_state config0 (boot (healthy 1 1))))))
  = [(led0, 1)]
  /\ output_level led0 0
       (events_of (update_led_state config0 (boot (healthy 1 1))) ++
        events_of (update_led_state config0
                     (state_after (update_led_state config0 (boot (healthy 1 1))))))
     = 1.
Proof.
  destruct (update_led_state_idempotent config0 (boot (healthy 1 1))
              (state_after (update_led_state config0 (boot (healthy 1 1))))
              (state_after (update_led_state config0
                 (state_after (update_led_state config0 (boot (healthy 1 1))))))
              (events_of (update_led_state config0 (boot (healthy 1 1))))
              (events_of (update_led_state config0
                 (state_after (update_led_state config0 (boot (healthy 1 1)))))))
    as (Hwrites & _ & _ & _ & Hsame);
    [reflexivity | reflexivity | reflexivity | ].
  split.
  - rewrite Hwrites. reflexivity.
  - destruct (Hsame eq_refl) as [_ Hlevel]. rewrite Hlevel. reflexivity.
Defined.

(** After a bring-up, either callback re-evaluates the instance's pins. *)
Lemma stat_callbacks_equivalent_after_init :
  stat1_gpio_callback 0%nat (addr_stat1_cb 0) 16
    (state_after (indicator_led_init dev0 (boot (healthy 1 1))))
  = stat2_gpio_callback 1%nat (addr_stat2_cb 0) 128
    (state_after (indicator_led_init dev0 (boot (healthy 1 1)))).
Proof.
  apply (stat_callbacks_equivalent
           (state_after (indicator_led_init dev0 (boot (healthy 1 1))))
           0%nat config0 0%nat 16 1%nat 128).
  reflexivity.
Defined.

(** Both inputs high at power-up: the LED is on when bring-up returns. *)
Lemma indicator_led_init_startup_sync_both_high :
  pin_writes (events_of (indicator_led_init dev0 (boot (healthy 1 1))))
  = [(led0, 1)]
  /\ output (world (state_after (indicator_led_init dev0 (boot (healthy 1 1))))) led0
     = 1.
Proof.
  destruct (indicator_led_init_startup_sync dev0 (boot (healthy 1 1))
              (world_after_setup dev0 (healthy 1 1))
              (world_after_setup dev0 (healthy 1 1))
              0
              (drive led0 1 (world_after_setup dev0 (healthy 1 1))))
    as (_ & Hwrites & Hworld & _);
    [reflexivity | reflexivity | reflexivity | reflexivity |].
  split; [exact Hwrites | rewrite Hworld; reflexivity].
Defined.

(** The LED controller down: [-ENODEV] and nothing configured. *)
Lemma indicator_led_init_led_not_ready_down :
  ret_of (indicator_led_init dev0 (boot led_controller_down)) = - ENODEV
  /\ Forall (fun ev => is_configuration_step ev = false)
       (events_of (indicator_led_init dev0 (boot led_controller_down))).
Proof.
  destruct (indicator_led_init_led_not_ready dev0 (boot led_controller_down)
              led_controller_down)
    as (Hrun & _ & Hnone); [reflexivity |].
  split; [rewrite Hrun; reflexivity | exact Hnone].
Defined.

(** The STAT2 interrupt rejected with [-EINVAL]: that is what bring-up
    returns. *)
Lemma indicator_led_init_configure_failure_stat2_interrupt :
  ret_of (indicator_led_init dev0 (boot stat2_interrupt_rejected)) = - EINVAL.
Proof.
  apply (indicator_led_init_configure_failure dev0 (boot stat2_interrupt_rejected)
           (EvIntConfigure stat2_0 GPIO_INT_EDGE_BOTH (- EINVAL)) (- EINVAL)).
  - vm_compute. tauto.
  - reflexivity.
  - reflexivity.
Defined.

(** STAT1 unreadable at power-up: bring-up succeeds, nothing written. *)
Lemma indicator_led_init_absorbs_read_error_stat1 :
  ret_of (indicator_led_init dev0 (boot stat1_unreadable)) = 0
  /\ pin_writes (events_of (indicator_led_init dev0 (boot stat1_unreadable))) = [].
Proof.
  destruct (indicator_led_init_absorbs_read_error dev0 (boot stat1_unreadable)
              stat1_0 (- EIO))
    as (Hret & _ & Hwrites & _).
  - vm_compute. tauto.
  - reflexivity.
  - split; [exact Hret | exact Hwrites].
Defined.

(** STAT1 rejected as an input: its status is the first failure. *)
Lemma indicator_led_init_status_stat1_configure :
  first_checked_failure
    (events_of (indicator_led_init dev0 (boot stat1_configure_rejected)))
  = Some (- EINVAL).
Proof.
  destruct (indicator_led_init_status dev0 (boot stat1_configure_rejected)
              (state_after (indicator_led_init dev0 (boot stat1_configure_rejected)))
              (- EINVAL)
              (events_of (indicator_led_init dev0 (boot stat1_configure_rejected))))
    as (_ & Hfail & _); [reflexivity |].
  destruct Hfail as (Hfirst & _); [discriminate | exact Hfirst].
Defined.

(** C6, as stated, fails.  On a board whose controllers do not implement
    callbacks and whose STAT1 cannot be read, both registrations answer
    [-ENOSYS] and the startup re-evaluation logs "Failed to read STAT pins"
    and writes nothing; bring-up returns 0 all the same. *)
Lemma indicator_led_init_success_with_failed_steps :
  ret_of (indicator_led_init dev0 (boot no_callbacks_no_stat1)) = 0
  /\ every_step_succeeded
       (events_of (indicator_led_init dev0 (boot no_callbacks_no_stat1))) = false
  /\ events_of (indicator_led_init dev0 (boot no_callbacks_no_stat1)) =
       setup_trace dev0 0 0 0 0 0 (- ENOSYS) (- ENOSYS) ++
       [ EvGet stat1_0 (- EIO); EvGet stat2_0 1;
         EvLog LOG_LEVEL_ERR "Failed to read STAT pins" [];
         EvLog LOG_LEVEL_INF "Indicator LED initialized" [] ].
Proof. repeat split. Qed.

(** Both inputs high at power-up: the data block is filled. *)
Lemma indicator_led_init_fills_data_both_high :
  store (state_after (indicator_led_init dev0 (boot (healthy 1 1)))) 0%nat =
    {| config := Some config0;
       stat1_cb := {| handler := Some Fn_stat1_gpio_callback; pin_mask := 16 |};
       stat2_cb := {| handler := Some Fn_stat2_gpio_callback; pin_mask := 128 |} |}.
Proof.
  apply (indicator_led_init_fills_data dev0 (boot (healthy 1 1))).
  reflexivity.
Defined.

(** The LED follows the inputs through the edges: off at power-up with
    STAT2 low, on when STAT2 rises, off when STAT1 falls, and still off,
    with the read failure logged, when STAT1 cannot be read. *)
Example scenario_led_follows_inputs :
  scenario = Some ([0; 1; 0; 0], [("Failed to read STAT pins"%string, [])]).
Proof. reflexivity. Qed.


(** The same inputs on a board that rejects the write: the same write. *)
Lemma update_led_state_depends_only_on_reads_two_boards :
  pin_writes (events_of (update_led_state config0 (boot (healthy 1 1))))
  = pin_writes (events_of (update_led_state config0 (boot led_write_rejected))).
Proof.
  apply (update_led_state_depends_only_on_reads config0
           (boot (healthy 1 1)) (boot led_write_rejected)).
  reflexivity.
Defined.

(** The controller of STAT2 down: [-ENODEV]. *)
Lemma indicator_led_init_not_ready_stat2 :
  ret_of (indicator_led_init dev0 (boot stat2_controller_down)) = - ENODEV.
Proof.
  apply (indicator_led_init_not_ready dev0 (boot stat2_controller_down) stat2_0).
  vm_compute. tauto.
Defined.

(** The STAT2 interrupt rejected: no callback registered. *)
Lemma indicator_led_init_failure_effects_stat2_interrupt :
  registrations (events_of (indicator_led_init dev0 (boot stat2_interrupt_rejected))) = [].
Proof.
  apply (indicator_led_init_failure_effects dev0 (boot stat2_interrupt_rejected)).
  intros Hret. vm_compute in Hret. discriminate Hret.
Defined.


(** STAT1 rejected as an input: one error message, with the status. *)
Lemma indicator_led_init_logs_stat1_configure :
  exists fmt args,
    logs LOG_LEVEL_ERR
      (events_of (indicator_led_init dev0 (boot stat1_configure_rejected)))
    = [(fmt, args)]
    /\ (args = [- EINVAL] \/ (args = [] /\ - EINVAL = - ENODEV)).
Proof.
  destruct (indicator_led_init_logs dev0 (boot stat1_configure_rejected)
              (state_after (indicator_led_init dev0 (boot stat1_configure_rejected)))
              (- EINVAL)
              (events_of (indicator_led_init dev0 (boot stat1_configure_rejected))))
    as (_ & Hfail); [reflexivity |].
  destruct Hfail as (_ & _ & Herr); [discriminate | exact Herr].
Defined.

(** Pins 4 and 7: bit 4 of the STAT1 mask is set. *)
Lemma indicator_led_init_pin_masks_bit4 :
  Z.testbit
    (pin_mask (stat1_cb (store (state_after (indicator_led_init dev0 (boot (healthy 1 1)))) 0%nat)))
    4 = true.
Proof.
  destruct (indicator_led_init_pin_masks dev0 (boot (healthy 1 1)))
    as (Hbit & _); [reflexivity | cbn; lia | cbn; lia |].
  exact (Hbit 4 ltac:(lia)).
Defined.

(** The second instance brought up after the first: an edge on STAT1 of
    the first still re-evaluates the first. *)
Lemma indicator_led_init_keeps_other_instances_two_devices :
  fire 0%nat (addr_stat1_cb 0) 16
    (state_after (indicator_led_init dev1
       (state_after (indicator_led_init dev0 (boot (healthy 1 1))))))
  = Some (update_led_state config0
       (state_after (indicator_led_init dev1
          (state_after (indicator_led_init dev0 (boot (healthy 1 1))))))).
Proof.
  apply (indicator_led_init_keeps_other_instances dev1 dev0
           (state_after (indicator_led_init dev0 (boot (healthy 1 1)))) stat1_edge).
  - cbn. lia.
  - repeat split.
  - left. reflexivity.
Defined.

(** An edge on STAT2, then one on STAT1, after bring-up: both served. *)
Lemma deliver_armed_two_edges :
  is_Some (deliver [stat2_edge; stat1_edge]
             (state_after (indicator_led_init dev0 (boot (healthy 1 1))))).
Proof.
  destruct (deliver_armed dev0
              (state_after (indicator_led_init dev0 (boot (healthy 1 1))))
              [stat2_edge; stat1_edge])
    as (s' & evs & Hrun & _).
  - repeat split.
  - constructor; [right; reflexivity |].
    constructor; [left; reflexivity | constructor].
  - rewrite Hrun. exists (s', evs). reflexivity.
Defined.

End BoardRuns.
